(** * Vulkan [select]: a shallow embedding of
      aten/src/ATen/native/vulkan/ops/Select.cpp

    The file embeds the driver [select] and its three dispatch plans
    [select_depth], [select_height] and [select_width].  The GPU context is
    an explicit state threaded through a state-and-error monad: allocating a
    texture, creating a uniform parameter buffer and submitting a compute job
    are the only effects, and a failed [TORCH_CHECK] leaves the state as it
    found it.  The compute kernels themselves are addressed by name and are
    never run here: a submitted job is a record in the context's queue. *)

From Stdlib Require Import ZArith Lia Bool.
From stdpp Require Import base list strings.

Local Open Scope Z_scope.

(** ** Machine integers *)

(** Conversion of an [int64_t] to [uint32_t], as C++ performs it when
    [select] hands its index to a plan: the value modulo 2^32. *)
Definition uint32_t_of (z : Z) : Z := z mod 2 ^ 32.

Definition is_uint32 (z : Z) : Prop := 0 <= z < 2 ^ 32.

Definition is_int64 (z : Z) : Prop := - 2 ^ 63 <= z < 2 ^ 63.

(** ** api::utils *)

(** [uvec3]: three [uint32_t] components, [data[0]], [data[1]], [data[2]]. *)
Record uvec3 : Type := mk_uvec3 { data0 : Z; data1 : Z; data2 : Z }.

(** Modelled from the spec: [api::utils::div_up] is declared outside
    Select.cpp; the spec gives [div_up(c, 4u)] as "ceil(C/4)". *)
Definition div_up (numerator denominator : Z) : Z :=
  (numerator + denominator - 1) / denominator.

(** ** Tensors *)

(** The element types of [c10::ScalarType] a Vulkan tensor may carry. *)
Inductive ScalarType : Type :=
| Byte | Char | Int | Long | Half | Float | Bool | QUInt8 | QInt8 | QInt32.

(** [vTensor]: a device tensor backed by an image texture of the context.
    [vTensor_image] is the handle of that texture: its position in the
    context's texture table. *)
Record vTensor : Type := mk_vTensor {
  vTensor_sizes : list Z;
  vTensor_dtype : ScalarType;
  vTensor_extents : uvec3;
  vTensor_image : nat
}.

(** [at::Tensor]: either resident on the host, with its element values, or a
    handle wrapping a [vTensor]. *)
Inductive Tensor : Type :=
| HostTensor (sizes : list Z) (dtype : ScalarType) (values : list Z)
| VulkanTensor (v : vTensor).

Definition Tensor_sizes (t : Tensor) : list Z :=
  match t with
  | HostTensor sizes _ _ => sizes
  | VulkanTensor v => vTensor_sizes v
  end.

Definition Tensor_scalar_type (t : Tensor) : ScalarType :=
  match t with
  | HostTensor _ dtype _ => dtype
  | VulkanTensor v => vTensor_dtype v
  end.

Definition Tensor_is_vulkan (t : Tensor) : bool :=
  match t with
  | HostTensor _ _ _ => false
  | VulkanTensor _ => true
  end.

(** [self.dim()]: the rank, an [int64_t]. *)
Definition Tensor_dim (t : Tensor) : Z := Z.of_nat (length (Tensor_sizes t)).

(** [self.size(dim)].  [select] calls it only after it has checked
    [0 <= dim <= 2] on a tensor of rank 3, where it is entry [dim] of the
    shape (lemma [Tensor_size_lookup]); the default is never reached there. *)
Definition Tensor_size (t : Tensor) (d : Z) : Z :=
  nth (Z.to_nat d) (Tensor_sizes t) 0.

(** [IntArrayRef::operator[]], unchecked in C++.  The plans are local to the
    file and are called by [select] alone, on tensors of rank 3, where the
    indices 0, 1 and 2 they use are in range. *)
Definition at_ (sizes : list Z) (i : nat) : Z := nth i sizes 0.

(** ** The GPU context *)

(** A texture of the context: its extents, its element type, and its texels
    ([None] while the texture is allocated and not yet written). *)
Record Texture : Type := mk_Texture {
  tex_extents : uvec3;
  tex_dtype : ScalarType;
  tex_data : option (list Z)
}.

Inductive PipelineStage : Type := COMPUTE | TRANSFER | HOST.

Inductive MemoryAccessType : Type := READ | WRITE.

(** What [vTensor::image(barrier, stage, access)] yields: the image, bound
    for the given stage and access. *)
Record ImageBinding : Type := mk_ImageBinding {
  bound_image : nat;
  bound_stage : PipelineStage;
  bound_access : MemoryAccessType
}.

(** [api::PipelineBarrier]: the transitions gathered for one submission.  It
    starts empty ([pipeline_barrier{}]) and each [image] call adds to it. *)
Definition PipelineBarrier : Type := list ImageBinding.

(** The [Block] struct the three plans declare, in the order of its fields:
    [uvec3 size; uint32_t index]. *)
Record Block : Type := mk_Block { size : uvec3; index : Z }.

(** The 32-bit words of a [Block], in the order the struct lays them out:
    the three components of [size], then [index]. *)
Definition Block_words (b : Block) : list Z :=
  [data0 (size b); data1 (size b); data2 (size b); index b].

(** [VK_KERNEL(name)]: the descriptor of the compute kernel of that name. *)
Record ShaderInfo : Type := mk_ShaderInfo { kernel_name : string }.

Definition VK_KERNEL (name : string) : ShaderInfo := mk_ShaderInfo name.

(** The trailing arguments of [submit_compute_job]. *)
Inductive ShaderArgument : Type :=
| ImageArgument (b : ImageBinding)
| BufferArgument (buffer : nat).

(** One call of [Context::submit_compute_job], as recorded in the queue.
    [fence_handle] is [None] for [VK_NULL_HANDLE]. *)
Record ComputeJob : Type := mk_ComputeJob {
  shader_descriptor : ShaderInfo;
  pipeline_barrier : PipelineBarrier;
  global_work_group_size : uvec3;
  local_work_group_size : uvec3;
  fence_handle : option nat;
  shader_arguments : list ShaderArgument
}.

(** [api::Context]: the textures allocated so far (a handle is a position in
    [textures]), the uniform parameter buffers created so far, and the
    compute jobs submitted so far, oldest first. *)
Record Context : Type := mk_Context {
  textures : list Texture;
  uniform_buffers : list Block;
  queue : list ComputeJob
}.

(** ** Errors and the state-and-error monad *)

(** The arguments of a [TORCH_CHECK] message, which c10 concatenates. *)
Inductive MessagePart : Type :=
| Text (s : string)
| Number (n : Z)
| Shape (sizes : list Z).

(** [InvalidArgument] is the error of [TORCH_CHECK], [IndexOutOfRange] that
    of [TORCH_CHECK_INDEX]; [InternalAssert] stands for [convert] applied to
    a tensor that is not device-resident, which no call of this file does. *)
Inductive ErrorKind : Type := InvalidArgument | IndexOutOfRange | InternalAssert.

Record Error : Type := mk_Error { kind : ErrorKind; what : list MessagePart }.

(** A computation on the context that returns a value or throws.  The context
    reached is returned in both cases, as effects performed before a C++
    exception is thrown persist. *)
Definition M (A : Type) : Type := Context -> (Error + A) * Context.

Definition ret {A : Type} (a : A) : M A := fun ctx => (inr a, ctx).

Definition throw {A : Type} (e : Error) : M A := fun ctx => (inl e, ctx).

Definition bind {A B : Type} (m : M A) (k : A -> M B) : M B :=
  fun ctx =>
    match m ctx with
    | (inl e, ctx') => (inl e, ctx')
    | (inr a, ctx') => k a ctx'
    end.

Notation "x <- m ;; k" := (bind m (fun x => k))
  (at level 100, m at next level, right associativity).
Notation "m ;;; k" := (bind m (fun _ => k))
  (at level 100, right associativity).

(** Modelled from the spec: the c10 macros [TORCH_CHECK] and
    [TORCH_CHECK_INDEX] are defined outside Select.cpp.  The spec has a
    failed rank or axis check as an InvalidArgument error and a failed index
    check as an IndexOutOfRange error, both "raised synchronously" and
    "terminal for the call". *)
Definition TORCH_CHECK (cond : bool) (msg : list MessagePart) : M unit :=
  if cond then ret tt else throw (mk_Error InvalidArgument msg).

Definition TORCH_CHECK_INDEX (cond : bool) (msg : list MessagePart) : M unit :=
  if cond then ret tt else throw (mk_Error IndexOutOfRange msg).

(** ** Collaborators of Select.cpp *)

(** Modelled from the spec: both overloads of [convert] are declared in
    Common.h.  Towards [vTensor] it gives the texture-backed tensor behind a
    device-resident [Tensor]; from [vTensor] it is "the output texture
    wrapped as a new tensor handle".  The spec is silent on a host tensor:
    the model raises there, and the plans, which make their input
    device-resident first, never do (lemma [plan_of_axis_runs]). *)
Definition convert (t : Tensor) : M vTensor :=
  match t with
  | VulkanTensor v => ret v
  | HostTensor _ _ _ =>
      throw (mk_Error InternalAssert [Text "Vulkan tensor expected!"])
  end.

Definition convert_vTensor (v : vTensor) : Tensor := VulkanTensor v.

(** Modelled from the spec: [vTensor::image] is declared outside Select.cpp.
    The spec has a "write-access binding for the output image" and a
    "read-access binding for the input image", both taken in the barrier
    scope of the submission.  [image] is the overload with an explicit
    access, [image_read] the one without.  The plans call both as arguments
    of one [submit_compute_job], and C++ does not say which argument is
    evaluated first: the order of the entries of a barrier is the order the
    model happens to run them in, output first, and means nothing. *)
Definition image (v : vTensor) (barrier : PipelineBarrier)
    (stage : PipelineStage) (access : MemoryAccessType)
  : ImageBinding * PipelineBarrier :=
  let b := mk_ImageBinding (vTensor_image v) stage access in
  (b, barrier ++ [b]).

Definition image_read (v : vTensor) (barrier : PipelineBarrier)
    (stage : PipelineStage) : ImageBinding * PipelineBarrier :=
  image v barrier stage READ.

(** Modelled from the spec: [api::UniformParamsBuffer params(context, block)]
    belongs to the GPU context; the spec has "the parameter block bound as a
    uniform buffer".  A new buffer holds [block]; the result is its handle,
    [params.buffer()]. *)
Definition UniformParamsBuffer (block : Block) : M nat :=
  fun ctx =>
    (inr (length (uniform_buffers ctx)),
     mk_Context (textures ctx) (uniform_buffers ctx ++ [block]) (queue ctx)).

(** Modelled from the spec: [Context::submit_compute_job] belongs to the GPU
    context; the spec has the call return "once the command is
    recorded/submitted" and append "one job to its queue per call". *)
Definition submit_compute_job (job : ComputeJob) : M unit :=
  fun ctx =>
    (inr tt,
     mk_Context (textures ctx) (uniform_buffers ctx) (queue ctx ++ [job])).

Section Select.

(** The texture allocator behind the [vTensor] constructor: the extents of
    the image it allocates for a tensor of the given sizes and type. *)
Variable image_extents : list Z -> ScalarType -> uvec3.

(** [adaptive_work_group_size], declared in Common.h. *)
Variable adaptive_work_group_size : uvec3 -> uvec3.

(** Allocation of a texture with the given texels; the result is the
    [vTensor] that owns it. *)
Definition allocate (sizes : list Z) (dtype : ScalarType)
    (texels : option (list Z)) : M vTensor :=
  fun ctx =>
    let extents := image_extents sizes dtype in
    (inr (mk_vTensor sizes dtype extents (length (textures ctx))),
     mk_Context (textures ctx ++ [mk_Texture extents dtype texels])
                (uniform_buffers ctx) (queue ctx)).

(** Modelled from the spec: the constructor
    [vTensor v_output{context, sizes, dtype}] is declared outside
    Select.cpp; the spec has "a new, uninitialized output texture". *)
Definition vTensor_new (sizes : list Z) (dtype : ScalarType) : M vTensor :=
  allocate sizes dtype None.

(** Modelled from the spec: [Tensor::vulkan()] belongs to the tensor
    library; the spec has "transfer from host if necessary": a device
    copy of a host tensor, of the same sizes and element type. *)
Definition Tensor_vulkan (t : Tensor) : M Tensor :=
  match t with
  | VulkanTensor v => ret (VulkanTensor v)
  | HostTensor sizes dtype values =>
      v <- allocate sizes dtype (Some values) ;;
      ret (VulkanTensor v)
  end.

Definition select_depth (input_arg : Tensor) (index : Z) : M Tensor :=
  input <- (if Tensor_is_vulkan input_arg
            then ret input_arg else Tensor_vulkan input_arg) ;;
  v_input <- convert input ;;
  let v_input_sizes := vTensor_sizes v_input in
  v_output <- vTensor_new [at_ v_input_sizes 1; at_ v_input_sizes 2]
                          (Tensor_scalar_type input_arg) ;;
  let block := mk_Block (vTensor_extents v_output) index in
  params <- UniformParamsBuffer block ;;
  let pipeline_barrier : PipelineBarrier := [] in
  let '(out_image, pipeline_barrier) :=
    image v_output pipeline_barrier COMPUTE WRITE in
  let '(in_image, pipeline_barrier) :=
    image_read v_input pipeline_barrier COMPUTE in
  submit_compute_job
    (mk_ComputeJob
       (VK_KERNEL "select_depth")
       pipeline_barrier
       (vTensor_extents v_output)
       (adaptive_work_group_size (vTensor_extents v_output))
       None
       [ImageArgument out_image; ImageArgument in_image;
        BufferArgument params]) ;;;
  ret (convert_vTensor v_output).

Definition select_height (input_arg : Tensor) (index : Z) : M Tensor :=
  input <- (if Tensor_is_vulkan input_arg
            then ret input_arg else Tensor_vulkan input_arg) ;;
  v_input <- convert input ;;
  let v_input_sizes := vTensor_sizes v_input in
  v_output <- vTensor_new [at_ v_input_sizes 0; at_ v_input_sizes 2]
                          (Tensor_scalar_type input_arg) ;;
  let block := mk_Block (vTensor_extents v_output) index in
  let w := data0 (vTensor_extents v_output) in
  let c := data1 (vTensor_extents v_output) in
  let global_workgroup_size := mk_uvec3 w (div_up c 4) 1 in
  params <- UniformParamsBuffer block ;;
  let pipeline_barrier : PipelineBarrier := [] in
  let '(out_image, pipeline_barrier) :=
    image v_output pipeline_barrier COMPUTE WRITE in
  let '(in_image, pipeline_barrier) :=
    image_read v_input pipeline_barrier COMPUTE in
  submit_compute_job
    (mk_ComputeJob
       (VK_KERNEL "select_height")
       pipeline_barrier
       global_workgroup_size
       (adaptive_work_group_size global_workgroup_size)
       None
       [ImageArgument out_image; ImageArgument in_image;
        BufferArgument params]) ;;;
  ret (convert_vTensor v_output).

Definition select_width (input_arg : Tensor) (index : Z) : M Tensor :=
  input <- (if Tensor_is_vulkan input_arg
            then ret input_arg else Tensor_vulkan input_arg) ;;
  v_input <- convert input ;;
  let v_input_sizes := vTensor_sizes v_input in
  v_output <- vTensor_new [at_ v_input_sizes 0; at_ v_input_sizes 1]
                          (Tensor_scalar_type input_arg) ;;
  let block := mk_Block (vTensor_extents v_output) index in
  let h := data0 (vTensor_extents v_output) in
  let c := data1 (vTensor_extents v_output) in
  let global_workgroup_size := mk_uvec3 h (div_up c 4) 1 in
  params <- UniformParamsBuffer block ;;
  let pipeline_barrier : PipelineBarrier := [] in
  let '(out_image, pipeline_barrier) :=
    image v_output pipeline_barrier COMPUTE WRITE in
  let '(in_image, pipeline_barrier) :=
    image_read v_input pipeline_barrier COMPUTE in
  submit_compute_job
    (mk_ComputeJob
       (VK_KERNEL "select_width")
       pipeline_barrier
       global_workgroup_size
       (adaptive_work_group_size global_workgroup_size)
       None
       [ImageArgument out_image; ImageArgument in_image;
        BufferArgument params]) ;;;
  ret (convert_vTensor v_output).

(** The message of the index check, built from the raw [index]. *)
Definition index_message (self : Tensor) (dim index : Z)
  : list MessagePart :=
  [Text "select(): index "; Number index;
   Text " out of range for tensor of size "; Shape (Tensor_sizes self);
   Text " at dimension "; Number dim].

Definition select (self : Tensor) (dim index : Z) : M Tensor :=
  TORCH_CHECK (Tensor_dim self =? 3)
    [Text "Vulkan select only supports 3d tensors!"] ;;;
  TORCH_CHECK ((0 <=? dim) && (dim <=? 2))
    [Text "Vulkan select only supports one of the dim (0, 1, 2)"] ;;;
  let size := Tensor_size self dim in
  (if (index <? - size) || (index >=? size)
   then TORCH_CHECK_INDEX false (index_message self dim index)
   else ret tt) ;;;
  let index := if index <? 0 then index + size else index in
  if dim =? 0 then select_depth self (uint32_t_of index)
  else if dim =? 1 then select_height self (uint32_t_of index)
  else select_width self (uint32_t_of index).

End Select.

(** ** Vocabulary of the statements *)

(** The index after the rewriting of a negative one ([index += size]). *)
Definition normalized (idx size : Z) : Z :=
  if idx <? 0 then idx + size else idx.

(** The sizes a rank-3 shape keeps when dimension [dim] is removed. *)
Definition remove_dim (dim : Z) (sizes : list Z) : list Z :=
  delete (Z.to_nat dim) sizes.

(** The shape a call returns, if it returns. *)
Definition returned_sizes (r : (Error + Tensor) * Context)
  : option (list Z) :=
  match r.1 with
  | inr out => Some (Tensor_sizes out)
  | inl _ => None
  end.

(** The kernel name each axis is served by. *)
Definition kernel_of_axis (dim : Z) : string :=
  if dim =? 0 then "select_depth"
  else if dim =? 1 then "select_height" else "select_width".

Definition uvec3_is_uint32 (v : uvec3) : Prop :=
  is_uint32 (data0 v) /\ is_uint32 (data1 v) /\ is_uint32 (data2 v).

(** The bindings of a job that give write access. *)
Definition written_images (job : ComputeJob) : list nat :=
  omap (fun a => match a with
                 | ImageArgument b =>
                     match bound_access b with
                     | WRITE => Some (bound_image b)
                     | READ => None
                     end
                 | BufferArgument _ => None
                 end) (shader_arguments job).

(** The plan [select] hands a valid call to, by axis. *)
Definition plan_of_axis (image_extents : list Z -> ScalarType -> uvec3)
    (adaptive_work_group_size : uvec3 -> uvec3) (dim : Z)
  : Tensor -> Z -> M Tensor :=
  if dim =? 0 then select_depth image_extents adaptive_work_group_size
  else if dim =? 1 then select_height image_extents adaptive_work_group_size
  else select_width image_extents adaptive_work_group_size.

(** What the two packed plans have in common: the job they submit has the
    global size (e0, ceil(e1/4), 1), where e0 and e1 are components 0 and 1
    of the extents of the output texture the call has allocated. *)
Definition packed_geometry (plan : Tensor -> Z -> M Tensor) : Prop :=
  forall (input_arg : Tensor) (idx : Z) (ctx : Context),
  exists v_output job ctx' tex,
    plan input_arg idx ctx = (inr (VulkanTensor v_output), ctx')
    /\ queue ctx' = queue ctx ++ [job]
    /\ textures ctx' !! vTensor_image v_output = Some tex
    /\ (length (textures ctx) <= vTensor_image v_output)%nat
    /\ global_work_group_size job
       = mk_uvec3 (data0 (tex_extents tex))
                  (div_up (data1 (tex_extents tex)) 4) 1
    /\ 4 * (div_up (data1 (tex_extents tex)) 4 - 1)
       < data1 (tex_extents tex)
       <= 4 * div_up (data1 (tex_extents tex)) 4.

(** What the three plans have in common: the parameter block they create
    and bind last holds the extents of the output texture, then [idx]. *)
Definition parameter_block (plan : Tensor -> Z -> M Tensor) : Prop :=
  forall (input_arg : Tensor) (idx : Z) (ctx : Context),
  exists v_output job ctx' tex block buffer,
    plan input_arg idx ctx = (inr (VulkanTensor v_output), ctx')
    /\ queue ctx' = queue ctx ++ [job]
    /\ textures ctx' !! vTensor_image v_output = Some tex
    /\ last (shader_arguments job) = Some (BufferArgument buffer)
    /\ (length (uniform_buffers ctx) <= buffer)%nat
    /\ uniform_buffers ctx' !! buffer = Some block
    /\ size block = tex_extents tex
    /\ index block = idx
    /\ Block_words block
       = [data0 (tex_extents tex); data1 (tex_extents tex);
          data2 (tex_extents tex); idx]
    /\ (uvec3_is_uint32 (tex_extents tex) -> is_uint32 idx ->
        Forall is_uint32 (Block_words block)).

(** ** Sample collaborators and inputs, to run the model *)

(** An allocator in the manner of section 3 of the design: width and height
    are the x and y extents and the leading dimension of a rank-3 tensor is
    packed four to a texel. *)
Definition sample_extents (sizes : list Z) (_ : ScalarType) : uvec3 :=
  match sizes with
  | [h; w] => mk_uvec3 (uint32_t_of w) (uint32_t_of h) 1
  | [c; h; w] =>
      mk_uvec3 (uint32_t_of w) (uint32_t_of h) (uint32_t_of (div_up c 4))
  | _ => mk_uvec3 1 1 1
  end.

(** A work-group rule that looks at the global size alone. *)
Definition sample_work_group_size (global : uvec3) : uvec3 :=
  if data2 global =? 1 then mk_uvec3 8 8 1 else mk_uvec3 4 4 4.

(** The tensor of the cross-axis scenario: shape (2,3,4), the value at
    (c,h,w) being c*12+h*4+w, resident on the host. *)
Definition host_2x3x4 : Tensor :=
  HostTensor [2; 3; 4] Float (map Z.of_nat (seq 0 24)).

(** A context that already holds one texture, and a Vulkan tensor of shape
    (5,3,4) stored in it. *)
Definition ctx_one : Context :=
  mk_Context [mk_Texture (mk_uvec3 4 3 2) Float (Some [])] [] [].

Definition vulkan_5x3x4 : Tensor :=
  VulkanTensor (mk_vTensor [5; 3; 4] Float (mk_uvec3 4 3 2) 0).

Definition ctx_empty : Context := mk_Context [] [] [].

(** A rank-2 and a rank-4 tensor, which [select] refuses. *)
Definition host_2x3 : Tensor := HostTensor [2; 3] Float [0; 1; 2; 3; 4; 5].

Definition host_1x1x1x1 : Tensor := HostTensor [1; 1; 1; 1] Float [7].

(** ** Vocabulary of the further properties *)

(** The error of the rank check and the error of the axis check. *)
Definition rank_error : Error :=
  mk_Error InvalidArgument [Text "Vulkan select only supports 3d tensors!"].

Definition axis_error : Error :=
  mk_Error InvalidArgument
    [Text "Vulkan select only supports one of the dim (0, 1, 2)"].

(** The error of the index check. *)
Definition index_error (sizes : list Z) (dim idx : Z) : Error :=
  mk_Error IndexOutOfRange
    [Text "select(): index "; Number idx;
     Text " out of range for tensor of size "; Shape sizes;
     Text " at dimension "; Number dim].

(** What makes a call pass the three checks of [select]. *)
Definition valid_call (self : Tensor) (dim idx : Z) : Prop :=
  Tensor_dim self = 3 /\ 0 <= dim <= 2
  /\ - Tensor_size self dim <= idx < Tensor_size self dim.

(** The three plans side by side differ in three places only: the two input
    dimensions kept for the output, the rule that turns the output extents
    into the global work-group size, and the kernel.  [select_plan] is their
    common text, with those three places as parameters. *)
Definition select_plan (image_extents : list Z -> ScalarType -> uvec3)
    (adaptive_work_group_size : uvec3 -> uvec3)
    (first second : nat) (geometry : uvec3 -> uvec3) (kernel : string)
    (input_arg : Tensor) (index : Z) : M Tensor :=
  input <- (if Tensor_is_vulkan input_arg
            then ret input_arg else Tensor_vulkan image_extents input_arg) ;;
  v_input <- convert input ;;
  let v_input_sizes := vTensor_sizes v_input in
  v_output <- vTensor_new image_extents
                [at_ v_input_sizes first; at_ v_input_sizes second]
                (Tensor_scalar_type input_arg) ;;
  let block := mk_Block (vTensor_extents v_output) index in
  let global_workgroup_size := geometry (vTensor_extents v_output) in
  params <- UniformParamsBuffer block ;;
  let pipeline_barrier : PipelineBarrier := [] in
  let '(out_image, pipeline_barrier) :=
    image v_output pipeline_barrier COMPUTE WRITE in
  let '(in_image, pipeline_barrier) :=
    image_read v_input pipeline_barrier COMPUTE in
  submit_compute_job
    (mk_ComputeJob
       (VK_KERNEL kernel)
       pipeline_barrier
       global_workgroup_size
       (adaptive_work_group_size global_workgroup_size)
       None
       [ImageArgument out_image; ImageArgument in_image;
        BufferArgument params]) ;;;
  ret (convert_vTensor v_output).

(** The geometry rule of the two packed plans. *)
Definition packed (extents : uvec3) : uvec3 :=
  mk_uvec3 (data0 extents) (div_up (data1 extents) 4) 1.

(** The image a job reads from and the images its barrier covers. *)
Definition read_images (job : ComputeJob) : list nat :=
  omap (fun a => match a with
                 | ImageArgument b =>
                     match bound_access b with
                     | READ => Some (bound_image b)
                     | WRITE => None
                     end
                 | BufferArgument _ => None
                 end) (shader_arguments job).

(** The textures a call has to create before its output: none for a
    device-resident input, the device copy of a host-resident one. *)
Definition uploaded_textures (image_extents : list Z -> ScalarType -> uvec3)
    (self : Tensor) : list Texture :=
  match self with
  | VulkanTensor _ => []
  | HostTensor sizes dtype values =>
      [mk_Texture (image_extents sizes dtype) dtype (Some values)]
  end.

(** The image a plan reads: the input's own when it is device-resident, the
    device copy, allocated first, when it is not. *)
Definition input_image (self : Tensor) (ctx : Context) : nat :=
  match self with
  | VulkanTensor v => vTensor_image v
  | HostTensor _ _ _ => length (textures ctx)
  end.

(** What a valid call makes of a context, written out: the output tensor,
    then the textures, the parameter buffers and the queue it leaves.  [n] is
    the index as the plan receives it. *)
Definition select_outcome (image_extents : list Z -> ScalarType -> uvec3)
    (adaptive_work_group_size : uvec3 -> uvec3)
    (self : Tensor) (dim n : Z) (ctx : Context)
  : (Error + Tensor) * Context :=
  let dtype := Tensor_scalar_type self in
  let out_sizes := remove_dim dim (Tensor_sizes self) in
  let e := image_extents out_sizes dtype in
  let before := textures ctx ++ uploaded_textures image_extents self in
  let b_out := mk_ImageBinding (length before) COMPUTE WRITE in
  let b_in := mk_ImageBinding (input_image self ctx) COMPUTE READ in
  let global := if dim =? 0 then e else packed e in
  (inr (VulkanTensor (mk_vTensor out_sizes dtype e (length before))),
   mk_Context
     (before ++ [mk_Texture e dtype None])
     (uniform_buffers ctx ++ [mk_Block e n])
     (queue ctx
      ++ [mk_ComputeJob (VK_KERNEL (kernel_of_axis dim)) [b_out; b_in]
            global (adaptive_work_group_size global) None
            [ImageArgument b_out; ImageArgument b_in;
             BufferArgument (length (uniform_buffers ctx))]])).

(** A rank-3 tensor with nothing along its height. *)
Definition host_2x0x4 : Tensor := HostTensor [2; 0; 4] Float [].

(** A rank-3 tensor of shape (0, 2^33, 1): it has no element, and a height
    beyond what a [uint32_t] holds. *)
Definition host_0x2p33x1 : Tensor := HostTensor [0; 2 ^ 33; 1] Char [].

(** ** Arithmetic facts *)

Lemma div_up_is_ceiling (c : Z) :
  4 * (div_up c 4 - 1) < c <= 4 * div_up c 4.
Proof.
  unfold div_up.
  pose proof (Z.div_mod (c + 4 - 1) 4 ltac:(lia)) as Hdm.
  pose proof (Z.mod_pos_bound (c + 4 - 1) 4 ltac:(lia)) as Hb.
  lia.
Qed.

Lemma uint32_t_of_small (z : Z) : is_uint32 z -> uint32_t_of z = z.
Proof. intros Hz. unfold uint32_t_of. apply Z.mod_small. exact Hz. Qed.

Lemma uint32_t_of_range (z : Z) : is_uint32 (uint32_t_of z).
Proof. unfold is_uint32, uint32_t_of. apply Z.mod_pos_bound. lia. Qed.

Lemma normalized_range (idx size : Z) :
  - size <= idx < size -> 0 <= normalized idx size < size.
Proof.
  intros H. unfold normalized. destruct (Z.ltb_spec idx 0); lia.
Qed.

(** The signed arithmetic of [select] stays inside [int64_t]: neither
    [-size] nor [index + size] overflows on a valid call. *)
Lemma select_arithmetic_in_int64 (idx size : Z) :
  is_int64 idx -> is_int64 size -> 0 <= size ->
  is_int64 (- size) /\ (idx < 0 -> - size <= idx -> is_int64 (idx + size)).
Proof. unfold is_int64. lia. Qed.

(** ** Shapes of rank 3 *)

Lemma rank3_shape (t : Tensor) :
  Tensor_dim t = 3 -> exists C H W, Tensor_sizes t = [C; H; W].
Proof.
  unfold Tensor_dim. intros Hd.
  destruct (Tensor_sizes t) as [|C [|H [|W [|X l]]]]; simpl in Hd; try lia.
  now exists C, H, W.
Qed.

Lemma Tensor_size_lookup (t : Tensor) (d : Z) :
  Tensor_dim t = 3 -> 0 <= d <= 2 ->
  Tensor_sizes t !! Z.to_nat d = Some (Tensor_size t d).
Proof.
  intros Hr Hd. destruct (rank3_shape t Hr) as (C & H & W & Hs).
  unfold Tensor_size. rewrite Hs.
  assert (d = 0 \/ d = 1 \/ d = 2) as [-> | [-> | ->]] by lia; reflexivity.
Qed.

Section SelectProperties.

Variable image_extents : list Z -> ScalarType -> uvec3.
Variable adaptive_work_group_size : uvec3 -> uvec3.

Local Abbreviation select_depth' :=
  (select_depth image_extents adaptive_work_group_size).
Local Abbreviation select_height' :=
  (select_height image_extents adaptive_work_group_size).
Local Abbreviation select_width' :=
  (select_width image_extents adaptive_work_group_size).
Local Abbreviation select' := (select image_extents adaptive_work_group_size).

(** Both shapes of input, host-resident and device-resident, are run
    through a plan by computation. *)
Ltac run_plan t :=
  destruct t as [sizes dtype values | v_input]; cbn.

(** The texture a plan has just appended sits at the handle it returns. *)
Lemma lookup_fresh (l : list Texture) (x : Texture) :
  (l ++ [x]) !! length l = Some x.
Proof. now apply list_lookup_middle. Qed.

(** C7: for every depth-select call the global work-group size is the
    extents of the output texture allocated by the call, and the local
    work-group size is [adaptive_work_group_size] of that global size. *)
Theorem depth_geometry_is_output_extents
    (input_arg : Tensor) (idx : Z) (ctx : Context) :
  exists v_output job ctx' tex,
    select_depth' input_arg idx ctx = (inr (VulkanTensor v_output), ctx')
    /\ queue ctx' = queue ctx ++ [job]
    /\ textures ctx' !! vTensor_image v_output = Some tex
    /\ (length (textures ctx) <= vTensor_image v_output)%nat
    /\ global_work_group_size job = tex_extents tex
    /\ local_work_group_size job
       = adaptive_work_group_size (global_work_group_size job).
Proof.
  run_plan input_arg; do 4 eexists;
    (split; [reflexivity|]); cbn;
    (split; [reflexivity|]);
    (split; [apply lookup_fresh|]);
    (split; [rewrite ?length_app; lia|]);
    split; reflexivity.
Qed.

(** C1: height-select and width-select both dispatch over
    (e0, ceil(e1/4), 1), with e0 and e1 read from the extents of the freshly
    allocated output texture, whatever the allocator made of the shape. *)
Theorem packed_plans_geometry :
  packed_geometry select_height' /\ packed_geometry select_width'.
Proof.
  split; intros input_arg idx ctx;
    run_plan input_arg; do 4 eexists;
    (split; [reflexivity|]); cbn;
    (split; [reflexivity|]);
    (split; [apply lookup_fresh|]);
    (split; [rewrite ?length_app; lia|]);
    (split; [reflexivity|]); cbn; apply div_up_is_ceiling.
Qed.

Local Abbreviation plan_of_axis' :=
  (plan_of_axis image_extents adaptive_work_group_size).

(** C8: in each of the three plans the parameter block bound to the job is
    the one the call has just created, and its four 32-bit words are the
    three output-texture extents followed by the selected index. *)
Theorem parameter_block_layout :
  parameter_block select_depth'
  /\ parameter_block select_height'
  /\ parameter_block select_width'.
Proof.
  repeat split; intros input_arg idx ctx;
    run_plan input_arg; do 6 eexists;
    (split; [reflexivity|]); cbn;
    (split; [reflexivity|]);
    (split; [apply lookup_fresh|]);
    (split; [reflexivity|]);
    (split; [reflexivity|]);
    (split; [now apply list_lookup_middle|]);
    (split; [reflexivity|]);
    (split; [reflexivity|]);
    (split; [reflexivity|]);
    intros (H0 & H1 & H2) Hi; cbn in *;
    repeat (apply Forall_cons; split; [assumption|]); apply Forall_nil_2.
Qed.

(** ** The driver, case by case *)

(** The four ways through [select]: two failed checks, the failed index
    check, and the dispatch. *)
Lemma select_cases (self : Tensor) (dim idx : Z) (ctx : Context) :
  (Tensor_dim self <> 3
   /\ select' self dim idx ctx
      = (inl (mk_Error InvalidArgument
                [Text "Vulkan select only supports 3d tensors!"]), ctx))
  \/ (Tensor_dim self = 3 /\ (dim < 0 \/ 2 < dim)
      /\ select' self dim idx ctx
         = (inl (mk_Error InvalidArgument
                   [Text "Vulkan select only supports one of the dim (0, 1, 2)"]),
            ctx))
  \/ (Tensor_dim self = 3 /\ 0 <= dim <= 2
      /\ (idx < - Tensor_size self dim \/ idx >= Tensor_size self dim)
      /\ select' self dim idx ctx
         = (inl (mk_Error IndexOutOfRange (index_message self dim idx)), ctx))
  \/ (Tensor_dim self = 3 /\ 0 <= dim <= 2
      /\ - Tensor_size self dim <= idx < Tensor_size self dim
      /\ select' self dim idx ctx
         = plan_of_axis' dim self
             (uint32_t_of (normalized idx (Tensor_size self dim))) ctx).
Proof.
  unfold select, bind, TORCH_CHECK, TORCH_CHECK_INDEX, ret, throw.
  destruct (Z.eqb_spec (Tensor_dim self) 3) as [Hr | Hr]; [|left; auto].
  right.
  destruct (Z.leb_spec 0 dim) as [H0 | H0]; cbn [andb];
    [|left; repeat split; first [assumption | lia | reflexivity]].
  destruct (Z.leb_spec dim 2) as [H2 | H2];
    [|left; repeat split; first [assumption | lia | reflexivity]].
  right.
  destruct (Z.ltb_spec idx (- Tensor_size self dim)) as [Hl | Hl];
    cbn [orb]; [left; repeat split; first [assumption | lia | reflexivity]|].
  destruct (Z.geb_spec idx (Tensor_size self dim)) as [Hg | Hg];
    [left; repeat split; first [assumption | lia | reflexivity]|].
  right. repeat split; try first [assumption | lia].
  unfold plan_of_axis, normalized.
  destruct (dim =? 0); [|destruct (dim =? 1)]; reflexivity.
Qed.

Lemma select_valid (self : Tensor) (dim idx : Z) (ctx : Context) :
  Tensor_dim self = 3 -> 0 <= dim <= 2 ->
  - Tensor_size self dim <= idx < Tensor_size self dim ->
  select' self dim idx ctx
  = plan_of_axis' dim self
      (uint32_t_of (normalized idx (Tensor_size self dim))) ctx.
Proof.
  intros Hr Hd Hi.
  destruct (select_cases self dim idx ctx)
    as [(? & _) | [(_ & ? & _) | [(_ & _ & ? & _) | (_ & _ & _ & E)]]];
    try lia; exact E.
Qed.

(** Every plan returns, and what it returns and leaves behind. *)
Lemma plan_of_axis_runs (dim : Z) (input_arg : Tensor) (i : Z)
    (ctx : Context) :
  exists v_output job ctx' uploaded,
    plan_of_axis' dim input_arg i ctx = (inr (VulkanTensor v_output), ctx')
    /\ vTensor_sizes v_output
       = (if dim =? 0 then [at_ (Tensor_sizes input_arg) 1;
                            at_ (Tensor_sizes input_arg) 2]
          else if dim =? 1 then [at_ (Tensor_sizes input_arg) 0;
                                 at_ (Tensor_sizes input_arg) 2]
          else [at_ (Tensor_sizes input_arg) 0;
                at_ (Tensor_sizes input_arg) 1])
    /\ vTensor_dtype v_output = Tensor_scalar_type input_arg
    /\ vTensor_image v_output = length (textures ctx ++ uploaded)
    /\ textures ctx'
       = (textures ctx ++ uploaded)
         ++ [mk_Texture (vTensor_extents v_output)
               (Tensor_scalar_type input_arg) None]
    /\ uniform_buffers ctx'
       = uniform_buffers ctx ++ [mk_Block (vTensor_extents v_output) i]
    /\ queue ctx' = queue ctx ++ [job]
    /\ shader_descriptor job = VK_KERNEL (kernel_of_axis dim)
    /\ fence_handle job = None
    /\ written_images job = [vTensor_image v_output].
Proof.
  unfold plan_of_axis, kernel_of_axis.
  destruct (dim =? 0); [|destruct (dim =? 1)];
    destruct input_arg as [sizes dtype values | v_input]; cbn;
    do 3 eexists;
    first [ exists [mk_Texture (image_extents sizes dtype) dtype (Some values)]
          | exists [] ];
    rewrite ?app_nil_r; repeat split; reflexivity.
Qed.

(** ** The driver's contract *)

(** C2: on a rank-3 tensor, an axis among 0, 1, 2 and an index in
    [-size, size), [select] returns a tensor whose shape is the input shape
    without the selected dimension, (C,H,W) giving (H,W), (C,W) or (C,H),
    and whose element type is the input's. *)
Theorem select_shape_and_type
    (self : Tensor) (dim idx : Z) (ctx : Context) :
  Tensor_dim self = 3 -> 0 <= dim <= 2 ->
  - Tensor_size self dim <= idx < Tensor_size self dim ->
  exists out ctx',
    select' self dim idx ctx = (inr out, ctx')
    /\ Tensor_sizes out = remove_dim dim (Tensor_sizes self)
    /\ Tensor_scalar_type out = Tensor_scalar_type self
    /\ (forall C H W, Tensor_sizes self = [C; H; W] ->
        (dim = 0 -> Tensor_sizes out = [H; W])
        /\ (dim = 1 -> Tensor_sizes out = [C; W])
        /\ (dim = 2 -> Tensor_sizes out = [C; H])).
Proof.
  intros Hr Hd Hi. rewrite (select_valid self dim idx ctx Hr Hd Hi).
  destruct (plan_of_axis_runs dim self
              (uint32_t_of (normalized idx (Tensor_size self dim))) ctx)
    as (v & job & ctx' & up & E & Hs & Ht & _).
  exists (VulkanTensor v), ctx'. split; [exact E|]. cbn.
  destruct (rank3_shape self Hr) as (C & H & W & Hshape).
  rewrite Hs, Hshape. unfold remove_dim.
  assert (dim = 0 \/ dim = 1 \/ dim = 2) as [-> | [-> | ->]] by lia;
    cbn; (split; [reflexivity|]); (split; [exact Ht|]);
    intros C' H' W' [= <- <- <-]; repeat split; intros; (reflexivity || lia).
Qed.

(** C3: on a rank-3 tensor and an axis among 0, 1, 2, [select] fails exactly
    when [index < -size] or [index >= size]; the failure is an
    IndexOutOfRange error whose message carries the raw index, the whole
    input shape and the axis, and nothing has been done to the context;
    [index = size] and [index = -size - 1] fail. *)
Theorem select_index_out_of_range
    (self : Tensor) (dim idx : Z) (ctx : Context) :
  Tensor_dim self = 3 -> 0 <= dim <= 2 ->
  ((exists e, (select' self dim idx ctx).1 = inl e /\ kind e = IndexOutOfRange)
   <-> (idx < - Tensor_size self dim \/ idx >= Tensor_size self dim))
  /\ (forall e, (select' self dim idx ctx).1 = inl e ->
      e = mk_Error IndexOutOfRange
            [Text "select(): index "; Number idx;
             Text " out of range for tensor of size ";
             Shape (Tensor_sizes self);
             Text " at dimension "; Number dim]
      /\ (select' self dim idx ctx).2 = ctx)
  /\ (exists msg, select' self dim (Tensor_size self dim) ctx
                  = (inl (mk_Error IndexOutOfRange msg), ctx))
  /\ (exists msg, select' self dim (- Tensor_size self dim - 1) ctx
                  = (inl (mk_Error IndexOutOfRange msg), ctx)).
Proof.
  intros Hr Hd.
  assert (Hfail : forall i,
             i < - Tensor_size self dim \/ i >= Tensor_size self dim ->
             select' self dim i ctx
             = (inl (mk_Error IndexOutOfRange (index_message self dim i)),
                ctx)).
  { intros i Hi.
    destruct (select_cases self dim i ctx)
      as [(? & _) | [(_ & ? & _) | [(_ & _ & _ & E) | (_ & _ & ? & _)]]];
      try lia; exact E. }
  assert (Hok : - Tensor_size self dim <= idx < Tensor_size self dim ->
                exists out ctx', select' self dim idx ctx = (inr out, ctx')).
  { intros Hi. rewrite (select_valid self dim idx ctx Hr Hd Hi).
    destruct (plan_of_axis_runs dim self
                (uint32_t_of (normalized idx (Tensor_size self dim))) ctx)
      as (v & job & ctx' & up & E & _).
    eauto. }
  assert (Hdec : (idx < - Tensor_size self dim \/ idx >= Tensor_size self dim)
                 \/ - Tensor_size self dim <= idx < Tensor_size self dim)
    by lia.
  split; [split|split; [|split]].
  - intros (e & He & _). destruct Hdec as [Hbad | Hin]; [exact Hbad|].
    destruct (Hok Hin) as (out & ctx' & E). rewrite E in He. discriminate.
  - intros Hbad. rewrite (Hfail idx Hbad). eexists. split; reflexivity.
  - intros e He. destruct Hdec as [Hbad | Hin].
    + rewrite (Hfail idx Hbad) in *. cbn in He. injection He as <-.
      split; reflexivity.
    + destruct (Hok Hin) as (out & ctx' & E). rewrite E in He. discriminate.
  - eexists. apply Hfail. lia.
  - eexists. apply Hfail. lia.
Qed.

(** C4: on a rank-3 tensor, an axis among 0, 1, 2 and an index in
    [-size, 0), [select] at [index] and at [index + size] are the same
    computation: same result, same context, through the same plan with the
    same normalised index [index + size]. *)
Theorem select_negative_index
    (self : Tensor) (dim idx : Z) (ctx : Context) :
  Tensor_dim self = 3 -> 0 <= dim <= 2 ->
  - Tensor_size self dim <= idx < 0 ->
  select' self dim idx ctx = select' self dim (idx + Tensor_size self dim) ctx
  /\ normalized idx (Tensor_size self dim) = idx + Tensor_size self dim
  /\ normalized (idx + Tensor_size self dim) (Tensor_size self dim)
     = idx + Tensor_size self dim
  /\ select' self dim idx ctx
     = plan_of_axis' dim self (uint32_t_of (idx + Tensor_size self dim)) ctx.
Proof.
  intros Hr Hd Hi.
  assert (N1 : normalized idx (Tensor_size self dim)
               = idx + Tensor_size self dim).
  { unfold normalized. destruct (Z.ltb_spec idx 0); lia. }
  assert (N2 : normalized (idx + Tensor_size self dim) (Tensor_size self dim)
               = idx + Tensor_size self dim).
  { unfold normalized.
    destruct (Z.ltb_spec (idx + Tensor_size self dim) 0); lia. }
  rewrite (select_valid self dim idx ctx Hr Hd) by lia.
  rewrite (select_valid self dim (idx + Tensor_size self dim) ctx Hr Hd)
    by lia.
  rewrite N1, N2. repeat split; reflexivity.
Qed.

(** C5: when the rank is not 3, or the axis is not among 0, 1, 2, [select]
    fails with an InvalidArgument error and the context is the one it was
    given: no texture, no parameter buffer, no job. *)
Theorem select_rejects_rank_and_axis
    (self : Tensor) (dim idx : Z) (ctx : Context) :
  Tensor_dim self <> 3 \/ dim < 0 \/ 2 < dim ->
  exists msg,
    select' self dim idx ctx = (inl (mk_Error InvalidArgument msg), ctx).
Proof.
  intros Hbad.
  destruct (select_cases self dim idx ctx)
    as [(_ & E) | [(_ & _ & E) | [(? & ? & _) | (? & ? & _)]]];
    try (eexists; exact E); lia.
Qed.

(** C6: a call that passes validation is the Depth-Select plan on axis 0,
    the Height-Select plan on axis 1 and the Width-Select plan on axis 2,
    run on the normalised index, which is not negative, converted to the
    plan's [uint32_t] parameter; the job submitted names the kernel of that
    plan and its parameter block holds that index.  The conversion changes
    nothing when the extent of the axis is at most 2^32. *)
Theorem select_routes_by_axis
    (self : Tensor) (dim idx : Z) (ctx : Context) :
  Tensor_dim self = 3 -> 0 <= dim <= 2 ->
  - Tensor_size self dim <= idx < Tensor_size self dim ->
  let n := normalized idx (Tensor_size self dim) in
  0 <= n
  /\ (dim = 0 ->
      select' self dim idx ctx = select_depth' self (uint32_t_of n) ctx)
  /\ (dim = 1 ->
      select' self dim idx ctx = select_height' self (uint32_t_of n) ctx)
  /\ (dim = 2 ->
      select' self dim idx ctx = select_width' self (uint32_t_of n) ctx)
  /\ (exists out job block ctx',
        select' self dim idx ctx = (inr out, ctx')
        /\ queue ctx' = queue ctx ++ [job]
        /\ (dim = 0 -> shader_descriptor job = VK_KERNEL "select_depth")
        /\ (dim = 1 -> shader_descriptor job = VK_KERNEL "select_height")
        /\ (dim = 2 -> shader_descriptor job = VK_KERNEL "select_width")
        /\ uniform_buffers ctx' = uniform_buffers ctx ++ [block]
        /\ index block = uint32_t_of n)
  /\ (Tensor_size self dim <= 2 ^ 32 -> uint32_t_of n = n).
Proof.
  intros Hr Hd Hi n.
  pose proof (normalized_range idx (Tensor_size self dim) Hi) as Hn.
  fold n in Hn.
  pose proof (select_valid self dim idx ctx Hr Hd Hi) as E. fold n in E.
  split; [lia|].
  split; [intros ->; exact E|].
  split; [intros ->; exact E|].
  split; [intros ->; exact E|].
  split.
  - destruct (plan_of_axis_runs dim self (uint32_t_of n) ctx)
      as (v & job & ctx' & up & E' & _ & _ & _ & _ & Hb & Hq & Hk & _).
    exists (VulkanTensor v), job, (mk_Block (vTensor_extents v) (uint32_t_of n)),
      ctx'.
    rewrite E, Hk.
    repeat split; try assumption; intros ->; reflexivity.
  - intros Hs. apply uint32_t_of_small. unfold is_uint32. lia.
Qed.

(** C10: on a call that passes validation the normalised index lies in
    [0, size), and so does what the plan's [uint32_t] parameter receives;
    when the extent of the selected axis is at most 2^32 the conversion
    keeps the value, so the plan and its parameter block get the normalised
    index itself. *)
Theorem select_index_narrowing
    (self : Tensor) (dim idx : Z) (ctx : Context) :
  Tensor_dim self = 3 -> 0 <= dim <= 2 ->
  - Tensor_size self dim <= idx < Tensor_size self dim ->
  let n := normalized idx (Tensor_size self dim) in
  0 <= n < Tensor_size self dim
  /\ 0 <= uint32_t_of n < Tensor_size self dim
  /\ select' self dim idx ctx = plan_of_axis' dim self (uint32_t_of n) ctx
  /\ (Tensor_size self dim <= 2 ^ 32 ->
      uint32_t_of n = n
      /\ select' self dim idx ctx = plan_of_axis' dim self n ctx
      /\ exists out block ctx',
           select' self dim idx ctx = (inr out, ctx')
           /\ uniform_buffers ctx' = uniform_buffers ctx ++ [block]
           /\ index block = n).
Proof.
  intros Hr Hd Hi n.
  pose proof (normalized_range idx (Tensor_size self dim) Hi) as Hn.
  fold n in Hn.
  pose proof (select_valid self dim idx ctx Hr Hd Hi) as E. fold n in E.
  split; [exact Hn|]. split.
  { pose proof (uint32_t_of_range n) as Hu. unfold is_uint32 in Hu.
    pose proof (Z.mod_le n (2 ^ 32) ltac:(lia) ltac:(lia)) as Hle.
    unfold uint32_t_of in *. lia. }
  split; [exact E|].
  intros Hs.
  assert (Hu : uint32_t_of n = n)
    by (apply uint32_t_of_small; unfold is_uint32; lia).
  rewrite Hu in E. split; [exact Hu|]. split; [exact E|].
  destruct (plan_of_axis_runs dim self n ctx)
    as (v & job & ctx' & up & E' & _ & _ & _ & _ & Hb & _).
  exists (VulkanTensor v), (mk_Block (vTensor_extents v) n), ctx'.
  rewrite E. repeat split; assumption.
Qed.

(** C9: [select] never touches what was there.  Every texture of the
    context is after the call what it was before; a call that fails leaves
    the context as it was; a call that returns gives a Vulkan tensor on a
    texture that did not exist before, uninitialised, of the input's element
    type, and the one job it submits writes to that texture alone, hence
    not to the texture of a device-resident input. *)
Theorem select_leaves_input_untouched
    (self : Tensor) (dim idx : Z) (ctx : Context) :
  let r := select' self dim idx ctx in
  (forall h tex, textures ctx !! h = Some tex -> textures r.2 !! h = Some tex)
  /\ (forall e, r.1 = inl e -> r.2 = ctx)
  /\ (forall out, r.1 = inr out ->
      exists v_output job,
        out = VulkanTensor v_output
        /\ (length (textures ctx) <= vTensor_image v_output)%nat
        /\ textures r.2 !! vTensor_image v_output
           = Some (mk_Texture (vTensor_extents v_output)
                     (Tensor_scalar_type self) None)
        /\ queue r.2 = queue ctx ++ [job]
        /\ written_images job = [vTensor_image v_output]
        /\ (forall v_input, self = VulkanTensor v_input ->
            (vTensor_image v_input < length (textures ctx))%nat ->
            vTensor_image v_output <> vTensor_image v_input
            /\ textures r.2 !! vTensor_image v_input
               = textures ctx !! vTensor_image v_input)).
Proof.
  intros r. subst r.
  destruct (select_cases self dim idx ctx)
    as [(_ & E) | [(_ & _ & E) | [(_ & _ & _ & E) | (_ & _ & _ & E)]]];
    rewrite E; clear E;
    try (cbn; repeat split; [auto | discriminate]).
  destruct (plan_of_axis_runs dim self
              (uint32_t_of (normalized idx (Tensor_size self dim))) ctx)
    as (v & job & ctx' & up & E & _ & _ & Hh & Ht & _ & Hq & _ & _ & Hw).
  rewrite E. cbn. repeat split.
  - intros h tex Hl. rewrite Ht, <- app_assoc.
    now apply lookup_app_l_Some.
  - discriminate.
  - intros out [= <-]. exists v, job.
    split; [reflexivity|].
    split; [rewrite Hh, length_app; lia|].
    split; [rewrite Ht, Hh; apply lookup_fresh|].
    split; [exact Hq|].
    split; [exact Hw|].
    intros v_input -> Hvalid. split.
    + rewrite Hh, length_app. lia.
    + rewrite Ht, <- app_assoc. now apply lookup_app_l.
Qed.

End SelectProperties.

(** ** The theorems at concrete calls *)

(** Closed comparisons on [Z] are settled by evaluation. *)
Ltac evaluate :=
  vm_compute; repeat split; solve [reflexivity | discriminate].

(** Height-select of the last row of the (2,3,4) tensor: shape (2,4). *)
Lemma select_shape_and_type_witness :
  Tensor_dim host_2x3x4 = 3
  /\ - Tensor_size host_2x3x4 1 <= -1 < Tensor_size host_2x3x4 1
  /\ exists out ctx',
       select sample_extents sample_work_group_size host_2x3x4 1 (-1)
         ctx_empty = (inr out, ctx')
       /\ Tensor_sizes out = [2; 4]
       /\ Tensor_scalar_type out = Float.
Proof.
  assert (Hr : Tensor_dim host_2x3x4 = 3) by reflexivity.
  assert (Hi : - Tensor_size host_2x3x4 1 <= -1 < Tensor_size host_2x3x4 1)
    by evaluate.
  split; [exact Hr|]. split; [exact Hi|].
  destruct (select_shape_and_type sample_extents sample_work_group_size
              host_2x3x4 1 (-1) ctx_empty Hr ltac:(lia) Hi)
    as (out & ctx' & E & Hs & Ht & _).
  exists out, ctx'. repeat split; assumption.
Defined.

(** Width-select at index 4 of a (5,3,4) tensor: one past the end. *)
Lemma select_index_out_of_range_witness :
  Tensor_dim vulkan_5x3x4 = 3
  /\ exists msg,
       select sample_extents sample_work_group_size vulkan_5x3x4 2
         (Tensor_size vulkan_5x3x4 2) ctx_one
       = (inl (mk_Error IndexOutOfRange msg), ctx_one).
Proof.
  assert (Hr : Tensor_dim vulkan_5x3x4 = 3) by reflexivity.
  split; [exact Hr|].
  exact (proj1 (proj2 (proj2
           (select_index_out_of_range sample_extents sample_work_group_size
              vulkan_5x3x4 2 4 ctx_one Hr ltac:(lia))))).
Defined.

(** Depth-select at -1 and at 1 of the (2,3,4) tensor. *)
Lemma select_negative_index_witness :
  Tensor_dim host_2x3x4 = 3
  /\ - Tensor_size host_2x3x4 0 <= -1 < 0
  /\ select sample_extents sample_work_group_size host_2x3x4 0 (-1) ctx_empty
     = select sample_extents sample_work_group_size host_2x3x4 0
         (-1 + Tensor_size host_2x3x4 0) ctx_empty.
Proof.
  assert (Hr : Tensor_dim host_2x3x4 = 3) by reflexivity.
  assert (Hi : - Tensor_size host_2x3x4 0 <= -1 < 0) by evaluate.
  split; [exact Hr|]. split; [exact Hi|].
  exact (proj1 (select_negative_index sample_extents sample_work_group_size
                  host_2x3x4 0 (-1) ctx_empty Hr ltac:(lia) Hi)).
Defined.

(** A rank-2 tensor, a rank-4 tensor, and axis 3 on a rank-3 tensor. *)
Lemma select_rejects_rank_and_axis_witness :
  Tensor_dim host_2x3 <> 3
  /\ (exists msg,
        select sample_extents sample_work_group_size host_2x3 0 0 ctx_one
        = (inl (mk_Error InvalidArgument msg), ctx_one))
  /\ (exists msg,
        select sample_extents sample_work_group_size host_1x1x1x1 0 0 ctx_one
        = (inl (mk_Error InvalidArgument msg), ctx_one))
  /\ (exists msg,
        select sample_extents sample_work_group_size vulkan_5x3x4 3 0 ctx_one
        = (inl (mk_Error InvalidArgument msg), ctx_one)).
Proof.
  assert (H2 : Tensor_dim host_2x3 <> 3) by evaluate.
  assert (H4 : Tensor_dim host_1x1x1x1 <> 3) by evaluate.
  split; [exact H2|]. split; [|split].
  - exact (select_rejects_rank_and_axis sample_extents sample_work_group_size
             host_2x3 0 0 ctx_one (or_introl H2)).
  - exact (select_rejects_rank_and_axis sample_extents sample_work_group_size
             host_1x1x1x1 0 0 ctx_one (or_introl H4)).
  - apply (select_rejects_rank_and_axis sample_extents sample_work_group_size
             vulkan_5x3x4 3 0 ctx_one). right. right. lia.
Defined.

(** Height-select at -3 of a (5,3,4) tensor: the plan runs on index 0. *)
Lemma select_routes_by_axis_witness :
  Tensor_dim vulkan_5x3x4 = 3
  /\ - Tensor_size vulkan_5x3x4 1 <= -3 < Tensor_size vulkan_5x3x4 1
  /\ select sample_extents sample_work_group_size vulkan_5x3x4 1 (-3) ctx_one
     = select_height sample_extents sample_work_group_size vulkan_5x3x4
         (uint32_t_of (normalized (-3) (Tensor_size vulkan_5x3x4 1))) ctx_one.
Proof.
  assert (Hr : Tensor_dim vulkan_5x3x4 = 3) by reflexivity.
  assert (Hi : - Tensor_size vulkan_5x3x4 1 <= -3 < Tensor_size vulkan_5x3x4 1)
    by evaluate.
  split; [exact Hr|]. split; [exact Hi|].
  exact (proj1 (proj2 (proj2
           (select_routes_by_axis sample_extents sample_work_group_size
              vulkan_5x3x4 1 (-3) ctx_one Hr ltac:(lia) Hi))) eq_refl).
Defined.

(** Width-select at -4 of the (2,3,4) tensor: index 0, kept by the
    conversion. *)
Lemma select_index_narrowing_witness :
  Tensor_dim host_2x3x4 = 3
  /\ - Tensor_size host_2x3x4 2 <= -4 < Tensor_size host_2x3x4 2
  /\ Tensor_size host_2x3x4 2 <= 2 ^ 32
  /\ uint32_t_of (normalized (-4) (Tensor_size host_2x3x4 2))
     = normalized (-4) (Tensor_size host_2x3x4 2).
Proof.
  assert (Hr : Tensor_dim host_2x3x4 = 3) by reflexivity.
  assert (Hi : - Tensor_size host_2x3x4 2 <= -4 < Tensor_size host_2x3x4 2)
    by evaluate.
  assert (Hs : Tensor_size host_2x3x4 2 <= 2 ^ 32) by evaluate.
  split; [exact Hr|]. split; [exact Hi|]. split; [exact Hs|].
  exact (proj1 (proj2 (proj2 (proj2
           (select_index_narrowing sample_extents sample_work_group_size
              host_2x3x4 2 (-4) ctx_empty Hr ltac:(lia) Hi))) Hs)).
Defined.

(** ** The scenarios of the design, run on the model *)

(** Cross-axis scenario on the (2,3,4) tensor: [select(t,0,1)] has shape
    (3,4), [select(t,1,2)] shape (2,4) and [select(t,2,0)] shape (2,3). *)
Example cross_axis_shapes :
  map (fun '(dim, idx) =>
         returned_sizes
           (select sample_extents sample_work_group_size host_2x3x4 dim idx
              ctx_empty))
      [(0, 1); (1, 2); (2, 0)]
  = [Some [3; 4]; Some [2; 4]; Some [2; 3]].
Proof. reflexivity. Qed.

(** Packing-boundary scenario, C = 5: with an output texture of extents
    (4,5,1) height-select dispatches over (4,2,1), two channel groups. *)
Example packed_remainder_group :
  map global_work_group_size
      (queue (select sample_extents sample_work_group_size vulkan_5x3x4 1 0
                ctx_one).2)
  = [mk_uvec3 4 2 1].
Proof. reflexivity. Qed.

(** One past the end of the width axis of a (5,3,4) tensor. *)
Example out_of_range_message :
  select sample_extents sample_work_group_size vulkan_5x3x4 2 4 ctx_one
  = (inl (mk_Error IndexOutOfRange
            [Text "select(): index "; Number 4;
             Text " out of range for tensor of size "; Shape [5; 3; 4];
             Text " at dimension "; Number 2]),
     ctx_one).
Proof. reflexivity. Qed.

(** The last valid negative index and the first invalid one. *)
Example negative_index_boundary :
  returned_sizes
    (select sample_extents sample_work_group_size vulkan_5x3x4 0 (-5) ctx_one)
  = Some [3; 4]
  /\ returned_sizes
       (select sample_extents sample_work_group_size vulkan_5x3x4 0 (-6)
          ctx_one)
     = None.
Proof. split; reflexivity. Qed.

(** ** Further properties of the driver and its plans *)

Section SelectFurther.

Variable image_extents : list Z -> ScalarType -> uvec3.
Variable adaptive_work_group_size : uvec3 -> uvec3.

Local Abbreviation sel := (select image_extents adaptive_work_group_size).
Local Abbreviation plan_by_axis :=
  (plan_of_axis image_extents adaptive_work_group_size).
Local Abbreviation one_plan :=
  (select_plan image_extents adaptive_work_group_size).

(** X13: the three plans are one plan: [select_depth] keeps input dimensions 1
    and 2 and dispatches over the output extents, [select_height] keeps 0
    and 2 and [select_width] 0 and 1, both dispatching over the packed
    geometry; apart from these and the kernel they run the same steps. *)
Theorem plans_are_one_plan (input_arg : Tensor) (i : Z) (ctx : Context) :
  select_depth image_extents adaptive_work_group_size input_arg i ctx
  = one_plan 1%nat 2%nat (fun e => e) "select_depth" input_arg i ctx
  /\ select_height image_extents adaptive_work_group_size input_arg i ctx
     = one_plan 0%nat 2%nat packed "select_height" input_arg i ctx
  /\ select_width image_extents adaptive_work_group_size input_arg i ctx
     = one_plan 0%nat 1%nat packed "select_width" input_arg i ctx.
Proof. repeat split; reflexivity. Qed.

(** A call that returns has passed the three checks. *)
Lemma returned_is_valid
    (self out : Tensor) (dim idx : Z) (ctx ctx' : Context) :
  sel self dim idx ctx = (inr out, ctx') -> valid_call self dim idx.
Proof.
  intros E. unfold valid_call.
  destruct (select_cases image_extents adaptive_work_group_size
              self dim idx ctx)
    as [(_ & F) | [(_ & _ & F) | [(_ & _ & _ & F) | (Hr & Hd & Hi & _)]]];
    try (rewrite F in E; discriminate).
  auto.
Qed.

(** X1: [select] returns a tensor exactly on a rank-3 tensor, an axis among
    0, 1, 2 and an index in [-size, size). *)
Theorem select_returns_iff (self : Tensor) (dim idx : Z) (ctx : Context) :
  (exists out ctx', sel self dim idx ctx = (inr out, ctx'))
  <-> valid_call self dim idx.
Proof.
  split.
  - intros (out & ctx' & E). exact (returned_is_valid _ _ _ _ _ _ E).
  - intros (Hr & Hd & Hi).
    rewrite (select_valid image_extents adaptive_work_group_size
               self dim idx ctx Hr Hd Hi).
    destruct (plan_of_axis_runs image_extents adaptive_work_group_size dim
                self (uint32_t_of (normalized idx (Tensor_size self dim)))
                ctx) as (v & job & ctx' & up & E & _).
    eauto.
Qed.

(** X2: a failure of [select] is one of three, decided in this order: the rank
    error when the rank is not 3, whatever the axis and the index; else the
    axis error when the axis is not among 0, 1, 2, whatever the index; else
    the index error.  In each case the context is left as it was. *)
Theorem select_failure_classified
    (self : Tensor) (dim idx : Z) (ctx : Context) (e : Error) :
  (sel self dim idx ctx).1 = inl e ->
  (sel self dim idx ctx).2 = ctx
  /\ ((Tensor_dim self <> 3 /\ e = rank_error)
      \/ (Tensor_dim self = 3 /\ (dim < 0 \/ 2 < dim) /\ e = axis_error)
      \/ (Tensor_dim self = 3 /\ 0 <= dim <= 2
          /\ (idx < - Tensor_size self dim \/ idx >= Tensor_size self dim)
          /\ e = index_error (Tensor_sizes self) dim idx)).
Proof.
  intros He.
  destruct (select_cases image_extents adaptive_work_group_size
              self dim idx ctx)
    as [(Hr & F) | [(Hr & Hd & F) | [(Hr & Hd & Hi & F) | (Hr & Hd & Hi & F)]]].
  - rewrite F in *. cbn in *. injection He as <-.
    split; [reflexivity|]. left. split; [exact Hr|reflexivity].
  - rewrite F in *. cbn in *. injection He as <-.
    split; [reflexivity|]. right. left. repeat split; assumption.
  - rewrite F in *. cbn in *. injection He as <-.
    split; [reflexivity|]. right. right.
    split; [exact Hr|]. split; [exact Hd|]. split; [exact Hi|reflexivity].
  - exfalso. rewrite F in He.
    destruct (plan_of_axis_runs image_extents adaptive_work_group_size dim
                self (uint32_t_of (normalized idx (Tensor_size self dim)))
                ctx) as (v & job & ctx' & up & E & _).
    rewrite E in He. discriminate.
Qed.

(** X3: on a rank-3 tensor with nothing along the selected axis no index is
    valid: every call fails with the index error. *)
Theorem select_empty_axis (self : Tensor) (dim idx : Z) (ctx : Context) :
  Tensor_dim self = 3 -> 0 <= dim <= 2 -> Tensor_size self dim = 0 ->
  sel self dim idx ctx = (inl (index_error (Tensor_sizes self) dim idx), ctx).
Proof.
  intros Hr Hd Hz.
  destruct (select_cases image_extents adaptive_work_group_size
              self dim idx ctx)
    as [(? & _) | [(_ & ? & _) | [(_ & _ & _ & F) | (_ & _ & ? & _)]]];
    try lia.
  exact F.
Qed.

(** X4: the result of [select] has rank 2, so [select] refuses it: a second
    [select] on the result of a first fails with the rank error, on every
    axis and index, and leaves the context as the first call left it. *)
Theorem select_not_chained
    (self out : Tensor) (dim idx dim' idx' : Z) (ctx ctx' : Context) :
  sel self dim idx ctx = (inr out, ctx') ->
  Tensor_dim out = 2
  /\ sel out dim' idx' ctx' = (inl rank_error, ctx').
Proof.
  intros E.
  pose proof (returned_is_valid _ _ _ _ _ _ E) as Hv.
  destruct Hv as (Hr & Hd & Hi).
  rewrite (select_valid image_extents adaptive_work_group_size
             self dim idx ctx Hr Hd Hi) in E.
  destruct (plan_of_axis_runs image_extents adaptive_work_group_size dim
              self (uint32_t_of (normalized idx (Tensor_size self dim)))
              ctx) as (v & job & ctx1 & up & F & Hs & _).
  rewrite F in E. injection E as <- <-.
  assert (H2 : Tensor_dim (VulkanTensor v) = 2).
  { unfold Tensor_dim. cbn. rewrite Hs.
    destruct (dim =? 0); [|destruct (dim =? 1)]; reflexivity. }
  split; [exact H2|].
  destruct (select_cases image_extents adaptive_work_group_size
              (VulkanTensor v) dim' idx' ctx1)
    as [(_ & G) | [(? & _) | [(? & _) | (? & _)]]]; try lia.
  exact G.
Qed.

(** Every valid call comes out as [select_outcome] has it. *)
Lemma select_closed_form (self : Tensor) (dim idx : Z) (ctx : Context) :
  valid_call self dim idx ->
  sel self dim idx ctx
  = select_outcome image_extents adaptive_work_group_size self dim
      (uint32_t_of (normalized idx (Tensor_size self dim))) ctx.
Proof.
  intros (Hr & Hd & Hi).
  rewrite (select_valid image_extents adaptive_work_group_size
             self dim idx ctx Hr Hd Hi).
  destruct (rank3_shape self Hr) as (C & H & W & Hs).
  unfold plan_of_axis, select_outcome.
  assert (dim = 0 \/ dim = 1 \/ dim = 2) as [-> | [-> | ->]] by lia;
    destruct self as [sizes dtype values | [sizes dtype extents handle]];
    cbn in Hs; subst sizes; cbn; rewrite ?app_nil_r; reflexivity.
Qed.

(** X5: what a call that returns has added to the context: to the textures, the
    device copy of the input if the input was on the host, holding the host
    values, and then the uninitialised output texture; one parameter buffer;
    one job.  Nothing that was there is removed or moved. *)
Theorem select_resource_accounting
    (self out : Tensor) (dim idx : Z) (ctx ctx' : Context) :
  sel self dim idx ctx = (inr out, ctx') ->
  textures ctx'
  = textures ctx ++ uploaded_textures image_extents self
    ++ [mk_Texture
          (image_extents (Tensor_sizes out) (Tensor_scalar_type self))
          (Tensor_scalar_type self) None]
  /\ (exists block, uniform_buffers ctx' = uniform_buffers ctx ++ [block])
  /\ (exists job, queue ctx' = queue ctx ++ [job])
  /\ length (textures ctx')
     = (length (textures ctx)
        + (if Tensor_is_vulkan self then 1 else 2))%nat.
Proof.
  intros E. pose proof (returned_is_valid _ _ _ _ _ _ E) as Hv.
  rewrite (select_closed_form self dim idx ctx Hv) in E.
  unfold select_outcome in E. injection E as <- <-. cbn.
  split; [now rewrite <- app_assoc|].
  split; [eauto|]. split; [eauto|].
  rewrite !length_app. destruct self; cbn; lia.
Qed.

(** X6: the index reaches the device through the parameter block and nowhere
    else: two valid calls on the same tensor, axis and context return the
    same tensor and leave the same textures and the same queue, whatever the
    two indices; their parameter blocks hold the same extents and the two
    indices. *)
Theorem select_index_only_in_block
    (self : Tensor) (dim i j : Z) (ctx : Context) :
  valid_call self dim i -> valid_call self dim j ->
  exists out e ctx_i ctx_j,
    sel self dim i ctx = (inr out, ctx_i)
    /\ sel self dim j ctx = (inr out, ctx_j)
    /\ textures ctx_i = textures ctx_j
    /\ queue ctx_i = queue ctx_j
    /\ uniform_buffers ctx_i
       = uniform_buffers ctx
         ++ [mk_Block e (uint32_t_of (normalized i (Tensor_size self dim)))]
    /\ uniform_buffers ctx_j
       = uniform_buffers ctx
         ++ [mk_Block e (uint32_t_of (normalized j (Tensor_size self dim)))].
Proof.
  intros Hi Hj.
  rewrite (select_closed_form self dim i ctx Hi),
          (select_closed_form self dim j ctx Hj).
  unfold select_outcome. do 4 eexists. repeat split; reflexivity.
Qed.

(** X7: two valid calls on the same tensor, axis and context are the same
    computation exactly when the plan receives the same index, that is when
    the normalised indices agree modulo 2^32; on an axis of extent at most
    2^32, exactly when they denote the same position. *)
Theorem select_same_iff_same_index
    (self : Tensor) (dim i j : Z) (ctx : Context) :
  valid_call self dim i -> valid_call self dim j ->
  (sel self dim i ctx = sel self dim j ctx
   <-> uint32_t_of (normalized i (Tensor_size self dim))
       = uint32_t_of (normalized j (Tensor_size self dim)))
  /\ (Tensor_size self dim <= 2 ^ 32 ->
      (sel self dim i ctx = sel self dim j ctx
       <-> normalized i (Tensor_size self dim)
           = normalized j (Tensor_size self dim))).
Proof.
  intros Hi Hj.
  assert (Hiff : sel self dim i ctx = sel self dim j ctx
                 <-> uint32_t_of (normalized i (Tensor_size self dim))
                     = uint32_t_of (normalized j (Tensor_size self dim))).
  { rewrite (select_closed_form self dim i ctx Hi),
            (select_closed_form self dim j ctx Hj).
    unfold select_outcome. split.
    - intros E.
      apply (f_equal (fun r : (Error + Tensor) * Context =>
                        uniform_buffers r.2)) in E.
      cbn in E. apply app_inj_tail in E as [_ Hb]. now injection Hb.
    - intros ->. reflexivity. }
  split; [exact Hiff|].
  intros Hs. rewrite Hiff.
  destruct Hi as (_ & _ & Hi), Hj as (_ & _ & Hj).
  pose proof (normalized_range _ _ Hi). pose proof (normalized_range _ _ Hj).
  rewrite !uint32_t_of_small by (unfold is_uint32; lia).
  reflexivity.
Qed.

(** X8: the job of a valid call: the kernel is dispatched without a fence; its
    local work-group size is [adaptive_work_group_size] of the global size it
    is dispatched over, which on axes 1 and 2 is the packed geometry and not
    the output extents. *)
Theorem select_dispatch_parameters
    (self : Tensor) (dim idx : Z) (ctx : Context) :
  valid_call self dim idx ->
  exists v_output job ctx',
    sel self dim idx ctx = (inr (VulkanTensor v_output), ctx')
    /\ queue ctx' = queue ctx ++ [job]
    /\ fence_handle job = None
    /\ local_work_group_size job
       = adaptive_work_group_size (global_work_group_size job)
    /\ (dim <> 0 ->
        local_work_group_size job
        = adaptive_work_group_size (packed (vTensor_extents v_output))).
Proof.
  intros Hv. rewrite (select_closed_form self dim idx ctx Hv).
  unfold select_outcome. do 3 eexists.
  split; [reflexivity|]. cbn.
  split; [reflexivity|]. split; [reflexivity|]. split; [reflexivity|].
  intros Hd. destruct (Z.eqb_spec dim 0); [contradiction|reflexivity].
Qed.

(** X9: the bindings of the job of a valid call, in the order the kernel takes
    them: the output image for writing, the input image for reading, the
    parameter buffer.  The input image is the input tensor's own when the
    input is device-resident; the barrier of the job holds these two image
    accesses and no other, in an order the source leaves open. *)
Theorem select_job_bindings
    (self : Tensor) (dim idx : Z) (ctx : Context) :
  valid_call self dim idx ->
  exists v_output job ctx',
    sel self dim idx ctx = (inr (VulkanTensor v_output), ctx')
    /\ queue ctx' = queue ctx ++ [job]
    /\ shader_arguments job
       = [ImageArgument
            (mk_ImageBinding (vTensor_image v_output) COMPUTE WRITE);
          ImageArgument
            (mk_ImageBinding (input_image self ctx) COMPUTE READ);
          BufferArgument (length (uniform_buffers ctx))]
    /\ Permutation (pipeline_barrier job)
         [mk_ImageBinding (vTensor_image v_output) COMPUTE WRITE;
          mk_ImageBinding (input_image self ctx) COMPUTE READ]
    /\ written_images job = [vTensor_image v_output]
    /\ read_images job = [input_image self ctx]
    /\ (forall v_input, self = VulkanTensor v_input ->
        input_image self ctx = vTensor_image v_input).
Proof.
  intros Hv. rewrite (select_closed_form self dim idx ctx Hv).
  unfold select_outcome. do 3 eexists.
  split; [reflexivity|]. cbn.
  repeat split; try reflexivity.
  intros v_input ->. reflexivity.
Qed.

(** X10: two calls in sequence: the two outputs sit on different textures, the
    later one on the higher handle; the queue holds the two jobs in the
    order of the calls; each job writes to its own output alone, and the
    second call leaves the texture of the first output as it was. *)
Theorem select_calls_in_sequence
    (t1 t2 o1 o2 : Tensor) (d1 d2 i1 i2 : Z) (ctx ctx1 ctx2 : Context) :
  sel t1 d1 i1 ctx = (inr o1, ctx1) ->
  sel t2 d2 i2 ctx1 = (inr o2, ctx2) ->
  exists v1 v2 job1 job2,
    o1 = VulkanTensor v1 /\ o2 = VulkanTensor v2
    /\ (vTensor_image v1 < vTensor_image v2)%nat
    /\ queue ctx2 = queue ctx ++ [job1; job2]
    /\ written_images job1 = [vTensor_image v1]
    /\ written_images job2 = [vTensor_image v2]
    /\ textures ctx2 !! vTensor_image v1 = textures ctx1 !! vTensor_image v1
    /\ textures ctx1 !! vTensor_image v1
       = Some (mk_Texture (vTensor_extents v1) (vTensor_dtype v1) None).
Proof.
  intros E1 E2.
  pose proof (returned_is_valid _ _ _ _ _ _ E1) as H1.
  pose proof (returned_is_valid _ _ _ _ _ _ E2) as H2.
  rewrite (select_closed_form t1 d1 i1 ctx H1) in E1.
  rewrite (select_closed_form t2 d2 i2 ctx1 H2) in E2.
  unfold select_outcome in E1, E2.
  injection E1 as <- <-. injection E2 as <- <-. cbn.
  do 4 eexists.
  split; [reflexivity|]. split; [reflexivity|]. cbn.
  split; [rewrite !length_app; cbn; lia|].
  split; [now rewrite <- app_assoc|].
  split; [reflexivity|]. split; [reflexivity|].
  assert (Hhere : forall rest,
             (((textures ctx ++ uploaded_textures image_extents t1)
               ++ [mk_Texture
                     (image_extents (remove_dim d1 (Tensor_sizes t1))
                        (Tensor_scalar_type t1))
                     (Tensor_scalar_type t1) None]) ++ rest)
             !! length (textures ctx ++ uploaded_textures image_extents t1)
             = Some (mk_Texture
                       (image_extents (remove_dim d1 (Tensor_sizes t1))
                          (Tensor_scalar_type t1))
                       (Tensor_scalar_type t1) None)).
  { intros rest. rewrite <- app_assoc. now apply list_lookup_middle. }
  split.
  - rewrite <- app_assoc, (Hhere _).
    symmetry. rewrite <- (app_nil_r (_ ++ [_])). apply Hhere.
  - rewrite <- (app_nil_r (_ ++ [_])). apply Hhere.
Qed.

(** X11: a valid call on a host-resident tensor is the transfer of the tensor to
    the device followed by the call on the device copy. *)
Theorem select_host_is_upload_then_select
    (sizes : list Z) (dtype : ScalarType) (values : list Z)
    (dim idx : Z) (ctx : Context) :
  valid_call (HostTensor sizes dtype values) dim idx ->
  sel (HostTensor sizes dtype values) dim idx ctx
  = (t <- Tensor_vulkan image_extents (HostTensor sizes dtype values) ;;
     sel t dim idx) ctx.
Proof.
  intros Hv.
  rewrite (select_closed_form _ dim idx ctx Hv).
  unfold bind. cbn.
  assert (Hv' : valid_call
                  (VulkanTensor
                     (mk_vTensor sizes dtype (image_extents sizes dtype)
                        (length (textures ctx)))) dim idx) by exact Hv.
  rewrite (select_closed_form _ dim idx _ Hv').
  unfold select_outcome. cbn. rewrite app_nil_r. reflexivity.
Qed.

End SelectFurther.

(** ** The further properties at concrete calls *)

(** A rank-2 tensor: the rank error, the context as it was. *)
Lemma select_failure_classified_witness :
  (select sample_extents sample_work_group_size host_2x3 5 9 ctx_one).1
  = inl rank_error
  /\ (select sample_extents sample_work_group_size host_2x3 5 9 ctx_one).2
     = ctx_one.
Proof.
  assert (H : (select sample_extents sample_work_group_size
                 host_2x3 5 9 ctx_one).1 = inl rank_error) by reflexivity.
  split; [exact H|].
  exact (proj1 (select_failure_classified sample_extents
                  sample_work_group_size host_2x3 5 9 ctx_one rank_error H)).
Defined.

(** Height-select on a (2,0,4) tensor. *)
Lemma select_empty_axis_witness :
  Tensor_dim host_2x0x4 = 3 /\ Tensor_size host_2x0x4 1 = 0
  /\ select sample_extents sample_work_group_size host_2x0x4 1 0 ctx_empty
     = (inl (index_error [2; 0; 4] 1 0), ctx_empty).
Proof.
  assert (Hr : Tensor_dim host_2x0x4 = 3) by reflexivity.
  assert (Hz : Tensor_size host_2x0x4 1 = 0) by reflexivity.
  split; [exact Hr|]. split; [exact Hz|].
  exact (select_empty_axis sample_extents sample_work_group_size
           host_2x0x4 1 0 ctx_empty Hr ltac:(lia) Hz).
Defined.

(** Depth-select of the (2,3,4) tensor, then a select on its result. *)
Lemma select_not_chained_witness :
  let r := select sample_extents sample_work_group_size host_2x3x4 0 1
             ctx_empty in
  exists out,
    r = (inr out, r.2)
    /\ select sample_extents sample_work_group_size out 0 0 r.2
       = (inl rank_error, r.2).
Proof.
  cbv zeta.
  destruct (select sample_extents sample_work_group_size host_2x3x4 0 1
              ctx_empty) as [[e | out] ctx'] eqn:E;
    [vm_compute in E; discriminate E|].
  exists out. split; [reflexivity|].
  exact (proj2 (select_not_chained sample_extents sample_work_group_size
                  host_2x3x4 out 0 1 0 0 ctx_empty ctx' E)).
Defined.

(** Depth-select of the host-resident (2,3,4) tensor: two textures more. *)
Lemma select_resource_accounting_witness :
  let r := select sample_extents sample_work_group_size host_2x3x4 0 1
             ctx_empty in
  exists out,
    r = (inr out, r.2)
    /\ length (textures r.2) = 2%nat.
Proof.
  cbv zeta.
  destruct (select sample_extents sample_work_group_size host_2x3x4 0 1
              ctx_empty) as [[e | out] ctx'] eqn:E;
    [vm_compute in E; discriminate E|].
  exists out. split; [reflexivity|].
  exact (proj2 (proj2 (proj2
           (select_resource_accounting sample_extents
              sample_work_group_size host_2x3x4 out 0 1 ctx_empty ctx' E)))).
Defined.

(** Width-select of a (5,3,4) tensor at 0 and at 3. *)
Lemma select_index_only_in_block_witness :
  valid_call vulkan_5x3x4 2 0 /\ valid_call vulkan_5x3x4 2 3
  /\ exists out e ctx_i ctx_j,
       select sample_extents sample_work_group_size vulkan_5x3x4 2 0 ctx_one
       = (inr out, ctx_i)
       /\ select sample_extents sample_work_group_size vulkan_5x3x4 2 3
            ctx_one = (inr out, ctx_j)
       /\ textures ctx_i = textures ctx_j
       /\ queue ctx_i = queue ctx_j
       /\ uniform_buffers ctx_i = [mk_Block e 0]
       /\ uniform_buffers ctx_j = [mk_Block e 3].
Proof.
  assert (H0 : valid_call vulkan_5x3x4 2 0) by evaluate.
  assert (H3 : valid_call vulkan_5x3x4 2 3) by evaluate.
  split; [exact H0|]. split; [exact H3|].
  exact (select_index_only_in_block sample_extents sample_work_group_size
           vulkan_5x3x4 2 0 3 ctx_one H0 H3).
Defined.

(** Width-select of a (5,3,4) tensor at -1 and at 3: the same position. *)
Lemma select_same_iff_same_index_witness :
  valid_call vulkan_5x3x4 2 (-1) /\ valid_call vulkan_5x3x4 2 3
  /\ select sample_extents sample_work_group_size vulkan_5x3x4 2 (-1) ctx_one
     = select sample_extents sample_work_group_size vulkan_5x3x4 2 3 ctx_one.
Proof.
  assert (Hm : valid_call vulkan_5x3x4 2 (-1)) by evaluate.
  assert (H3 : valid_call vulkan_5x3x4 2 3) by evaluate.
  split; [exact Hm|]. split; [exact H3|].
  apply (proj1 (select_same_iff_same_index sample_extents
                  sample_work_group_size vulkan_5x3x4 2 (-1) 3 ctx_one
                  Hm H3)).
  reflexivity.
Defined.

(** Height-select of a (5,3,4) tensor: no fence. *)
Lemma select_dispatch_parameters_witness :
  valid_call vulkan_5x3x4 1 2
  /\ exists v_output job ctx',
       select sample_extents sample_work_group_size vulkan_5x3x4 1 2 ctx_one
       = (inr (VulkanTensor v_output), ctx')
       /\ queue ctx' = queue ctx_one ++ [job]
       /\ fence_handle job = None.
Proof.
  assert (Hv : valid_call vulkan_5x3x4 1 2) by evaluate.
  split; [exact Hv|].
  destruct (select_dispatch_parameters sample_extents sample_work_group_size
              vulkan_5x3x4 1 2 ctx_one Hv)
    as (v & job & ctx' & E & Hq & Hf & _).
  exists v, job, ctx'. auto.
Defined.

(** Height-select of a (5,3,4) tensor held in texture 0: the job reads
    texture 0. *)
Lemma select_job_bindings_witness :
  valid_call vulkan_5x3x4 1 2
  /\ exists v_output job ctx',
       select sample_extents sample_work_group_size vulkan_5x3x4 1 2 ctx_one
       = (inr (VulkanTensor v_output), ctx')
       /\ queue ctx' = queue ctx_one ++ [job]
       /\ read_images job = [0%nat].
Proof.
  assert (Hv : valid_call vulkan_5x3x4 1 2) by evaluate.
  split; [exact Hv|].
  destruct (select_job_bindings sample_extents sample_work_group_size
              vulkan_5x3x4 1 2 ctx_one Hv)
    as (v & job & ctx' & E & Hq & _ & _ & _ & Hread & _).
  exists v, job, ctx'. auto.
Defined.

(** Depth-select then width-select of the (2,3,4) tensor. *)
Lemma select_calls_in_sequence_witness :
  let r1 := select sample_extents sample_work_group_size host_2x3x4 0 1
              ctx_empty in
  let r2 := select sample_extents sample_work_group_size host_2x3x4 2 0
              r1.2 in
  exists v1 v2,
    r1.1 = inr (VulkanTensor v1) /\ r2.1 = inr (VulkanTensor v2)
    /\ (vTensor_image v1 < vTensor_image v2)%nat.
Proof.
  cbv zeta.
  destruct (select sample_extents sample_work_group_size host_2x3x4 0 1
              ctx_empty) as [[e1 | o1] ctx1] eqn:E1;
    [vm_compute in E1; discriminate E1|].
  pose proof E1 as E1'. vm_compute in E1'. injection E1' as <- <-.
  cbn [snd].
  match goal with
  | |- context [select ?a ?b ?t ?d ?i ?c] =>
      destruct (select a b t d i c) as [[e2 | o2] ctx2] eqn:E2
  end.
  - vm_compute in E2. discriminate E2.
  - destruct (select_calls_in_sequence sample_extents sample_work_group_size
                host_2x3x4 host_2x3x4 _ o2 0 2 1 0 ctx_empty _ ctx2
                E1 E2)
      as (v1 & v2 & job1 & job2 & -> & -> & Hlt & _).
    exists v1, v2. repeat split. exact Hlt.
Defined.

(** Height-select of the host-resident (2,3,4) tensor. *)
Lemma select_host_is_upload_then_select_witness :
  valid_call host_2x3x4 1 (-1)
  /\ select sample_extents sample_work_group_size host_2x3x4 1 (-1) ctx_one
     = (t <- Tensor_vulkan sample_extents host_2x3x4 ;;
        select sample_extents sample_work_group_size t 1 (-1)) ctx_one.
Proof.
  assert (Hv : valid_call host_2x3x4 1 (-1)) by evaluate.
  split; [exact Hv|].
  exact (select_host_is_upload_then_select sample_extents
           sample_work_group_size [2; 3; 4] Float (map Z.of_nat (seq 0 24))
           1 (-1) ctx_one Hv).
Defined.

(** C6, as worded, at a valid call it does not cover: height-select at index
    2^32 + 5 of the (0, 2^33, 1) tensor.  The index passes the checks and is
    its own normalised index, yet the plan is run on 5, and that is not the
    plan run on the normalised index. *)
Lemma select_passes_index_counterexample :
  Tensor_dim host_0x2p33x1 = 3
  /\ - Tensor_size host_0x2p33x1 1 <= 2 ^ 32 + 5 < Tensor_size host_0x2p33x1 1
  /\ normalized (2 ^ 32 + 5) (Tensor_size host_0x2p33x1 1) = 2 ^ 32 + 5
  /\ select sample_extents sample_work_group_size host_0x2p33x1 1
       (2 ^ 32 + 5) ctx_empty
     = select_height sample_extents sample_work_group_size host_0x2p33x1 5
         ctx_empty
  /\ select sample_extents sample_work_group_size host_0x2p33x1 1
       (2 ^ 32 + 5) ctx_empty
     <> select_height sample_extents sample_work_group_size host_0x2p33x1
          (normalized (2 ^ 32 + 5) (Tensor_size host_0x2p33x1 1)) ctx_empty.
Proof.
  split; [reflexivity|]. split; [evaluate|]. split; [reflexivity|].
  split; [reflexivity|].
  intros H.
  apply (f_equal (fun r : (Error + Tensor) * Context =>
                    map index (uniform_buffers r.2))) in H.
  vm_compute in H. discriminate H.
Qed.
